(** * The AI Assistant panel: conversation log, OpenAI client, webview events

    A shallow embedding of [src/panels/AIPanel.ts] and [src/types/chat.ts].
    The panel keeps the conversation in [_messages], answers the webview's
    [askQuestion] command through [_handleQuestion], and talks to the
    provider through [_callOpenAI].  Both methods are [try]/[catch] blocks
    around code that mutates the panel, so they are written in a small
    state-and-exception monad over the panel's observable state.

    The script of the chat page ([out/webview/webview.html]) is embedded
    too, as functions on the page's state, together with the panel's
    [_getWebviewContent] and [dispose]; [submit] carries one submission
    from the page through the panel and back. *)

From Stdlib Require Import ZArith String List.
From stdpp Require Import base list strings pretty.
Import ListNotations.

Local Open Scope string_scope.
Local Open Scope list_scope.

(** ** [src/types/chat.ts] *)

Module Chat.

(** [image?: { data; type; name? }] of [Message]. *)
Record Image := mkImage {
  data : string;
  type : string;
  name : option string
}.

(** [role: 'user' | 'system'] of [Message]. *)
Inductive MessageRole := user | system.

Record Message := mkMessage {
  role : MessageRole;
  content : string;
  timestamp : option Z;
  image : option Image
}.

(** [AIMessage]: the role is the constant ['assistant']. *)
Record AIMessage := mkAIMessage {
  ai_content : string
}.

(** An element of [(Message | AIMessage)[]]. *)
Inductive Turn :=
| OfMessage (m : Message)
| OfAIMessage (m : AIMessage).

(** The [role] strings that reach the wire. *)
Inductive Role := RUser | RSystem | RAssistant.

Definition turn_role (t : Turn) : Role :=
  match t with
  | OfMessage m => match role m with user => RUser | system => RSystem end
  | OfAIMessage _ => RAssistant
  end.

Definition turn_content (t : Turn) : string :=
  match t with
  | OfMessage m => content m
  | OfAIMessage m => ai_content m
  end.

(** An element of [AIRequest.messages]: [{role, content}] and nothing else. *)
Record Formatted := mkFormatted {
  f_role : Role;
  f_content : string
}.

(** [AIRequest]. *)
Record AIRequest := mkAIRequest {
  model : string;
  messages : list Formatted;
  max_tokens : Z
}.

(** An element of [AIResponse.choices]. *)
Record Choice := mkChoice {
  c_role : string;
  c_content : string
}.

(** [AIResponse.error]. *)
Record ApiError := mkApiError {
  e_message : string;
  e_type : string;
  e_code : option string
}.

(** [AIResponse].  [_callOpenAI] tests [data.choices] for presence before
    it reads its length, so the field is optional here. *)
Record AIResponse := mkAIResponse {
  choices : option (list Choice);
  error : option ApiError
}.

End Chat.

Import Chat.

(** ** What [axios] hands back *)

(** [error.response] of an [AxiosError]: the status and the decoded body. *)
Record AxiosResponse := mkAxiosResponse {
  status : Z;
  response_data : option AIResponse
}.

(** An [AxiosError]: its own [message] (the transport-level text) and the
    response, when one was received. *)
Record AxiosError := mkAxiosError {
  axios_message : string;
  response : option AxiosResponse
}.

(** A thrown JavaScript value: an [Error] with its [message], an
    [AxiosError] (which is an [Error] too), or a value that is not an
    [Error], kept as what [String(...)] makes of it. *)
Inductive Thrown :=
| ErrorObject (message : string)
| Axios (e : AxiosError)
| NotAnError (as_string : string).

(** [error instanceof Error ? error.message : String(error)]. *)
Definition message_or_String (e : Thrown) : string :=
  match e with
  | ErrorObject m => m
  | Axios a => axios_message a
  | NotAnError s => s
  end.

(** The settled promise of [axios.post]. *)
Inductive Settled :=
| Resolved (data : AIResponse)
| Rejected (reason : Thrown).

(** The HTTP exchange as [axios.post] receives it. *)
Record Post := mkPost {
  url : string;
  body : AIRequest;
  headers : list (string * string)
}.

(** ** The panel's surroundings

    [src/config] is not part of the panel: its four values are taken as
    given.  So are the clock, the provider behind [axios.post] and
    [JSON.stringify] on a response body. *)
Record World := mkWorld {
  getApiKey : string;
  getModel : string;
  OPENAI_API_ENDPOINT : string;
  MAX_TOKENS : Z;
  Date_now : Z;
  axios_post : Post -> Settled;
  JSON_stringify : option AIResponse -> string
}.

(** ** The panel *)

(** [this._panel.webview.postMessage({type, content})]. *)
Inductive EventType := response_t | error_t.

Record WebviewEvent := mkEvent {
  ev_type : EventType;
  ev_content : string
}.

(** The inbound webview message [{command, text, image}]. *)
Record Inbound := mkInbound {
  command : string;
  text : string;
  in_image : option Image
}.

(** The state a call can change: the conversation, the lines of the output
    channel, the events posted to the webview and the HTTP exchanges
    started, each oldest first. *)
Record Panel := mkPanel {
  _messages : list Turn;
  _outputChannel : list string;
  posted : list WebviewEvent;
  network : list Post
}.

Definition fresh : Panel := mkPanel [] [] [] [].

(** ** Effects *)

Inductive Completion (A : Type) :=
| Normal (a : A)
| Throw (e : Thrown).
Arguments Normal {A} a.
Arguments Throw {A} e.

Definition M (A : Type) : Type := Panel -> Completion A * Panel.

#[global] Instance M_ret : MRet M := fun A a p => (Normal a, p).

#[global] Instance M_bind : MBind M := fun A B k m p =>
  match m p with
  | (Normal a, p') => k a p'
  | (Throw e, p') => (Throw e, p')
  end.

Definition throw {A} (e : Thrown) : M A := fun p => (Throw e, p).

(** [try { body } catch (error) { handler }]. *)
Definition try_catch {A} (body : M A) (handler : Thrown -> M A) : M A :=
  fun p =>
    match body p with
    | (Normal a, p') => (Normal a, p')
    | (Throw e, p') => handler e p'
    end.

(** [AIPanel._outputChannel.appendLine(line)]. *)
Definition appendLine (line : string) : M unit :=
  fun p => (Normal tt,
            mkPanel (_messages p) (_outputChannel p ++ [line]) (posted p) (network p)).

(** [this._messages.push(t)]. *)
Definition push (t : Turn) : M unit :=
  fun p => (Normal tt,
            mkPanel (_messages p ++ [t]) (_outputChannel p) (posted p) (network p)).

(** Reading [this._messages]. *)
Definition read_messages : M (list Turn) :=
  fun p => (Normal (_messages p), p).

(** [this._panel.webview.postMessage(ev)]. *)
Definition postMessage (ev : WebviewEvent) : M unit :=
  fun p => (Normal tt,
            mkPanel (_messages p) (_outputChannel p) (posted p ++ [ev]) (network p)).

(** [await axios.post(url, body, {headers})]: the exchange is started, then
    the promise settles. *)
Definition await_post (w : World) (rq : Post) : M AIResponse :=
  fun p =>
    let p' := mkPanel (_messages p) (_outputChannel p) (posted p) (network p ++ [rq]) in
    match axios_post w rq with
    | Resolved d => (Normal d, p')
    | Rejected e => (Throw e, p')
    end.

(** ** [AIPanel] *)

(** [a || b] where [a] may be [undefined]: an absent or empty [a] gives [b]. *)
Definition or_else (a : option string) (b : string) : string :=
  match a with
  | Some s => if decide (s = "") then b else s
  | None => b
  end.

(** [error.response?.data?.error?.message]. *)
Definition response_error_message (e : AxiosError) : option string :=
  r ← response e; d ← response_data r; err ← error d; Some (e_message err).

(** A template literal's rendering of [error.response?.status]. *)
Definition show_status (s : option Z) : string :=
  match s with
  | Some z => pretty z
  | None => "undefined"
  end.

(** [messages.map((msg) => ({ role: msg.role, content: msg.content }))]. *)
Definition formattedMessages (messages : list Turn) : list Formatted :=
  map (fun msg => mkFormatted (turn_role msg) (turn_content msg)) messages.

(** The arguments [_callOpenAI] gives [axios.post]: the endpoint, the body
    [{model, messages, max_tokens}] and the two headers. *)
Definition request (w : World) (formatted : list Formatted) : Post :=
  mkPost (OPENAI_API_ENDPOINT w)
         (mkAIRequest (getModel w) formatted (MAX_TOKENS w))
         [("Content-Type", "application/json");
          ("Authorization", "Bearer " +:+ getApiKey w)].

Definition _callOpenAI (w : World) (messages : list Turn) : M string :=
  try_catch
    (appendLine "Calling OpenAI API...";;
     let formatted := formattedMessages messages in
     appendLine ("Sending request to " +:+ OPENAI_API_ENDPOINT w);;
     appendLine ("Model: " +:+ getModel w);;
     appendLine ("Messages count: " +:+ pretty (length formatted));;
     data ← await_post w (request w formatted);
     appendLine "Received response from OpenAI API";;
     match choices data with
     | Some (c :: _) => mret (c_content c)
     | _ => throw (ErrorObject "No response from OpenAI API")
     end)
    (fun error =>
       match error with
       | Axios e =>
           let statusCode := status <$> response e in
           let message := or_else (response_error_message e) (axios_message e) in
           let responseData := r ← response e; response_data r in
           appendLine ("API error (" +:+ show_status statusCode +:+ "): " +:+ message);;
           appendLine ("Response data: " +:+ JSON_stringify w responseData);;
           throw (ErrorObject ("API error: " +:+ message))
       | _ =>
           let errorMessage := message_or_String error in
           appendLine ("Error calling OpenAI API: " +:+ errorMessage);;
           throw (ErrorObject ("Error calling OpenAI API: " +:+ errorMessage))
       end).

(** The user turn [_handleQuestion] builds: [{role: "user", content:
    question, timestamp: Date.now()}]. *)
Definition userMessage (w : World) (question : string) : Message :=
  mkMessage user question (Some (Date_now w)) None.

(** The [try] block of [_handleQuestion]. *)
Definition _handleQuestion_try (w : World) (question : string) : M unit :=
  appendLine ("Received question: " +:+ question);;
  (if decide (getApiKey w = "")
   then throw (ErrorObject
          "OpenAI API key is not configured. Please set it in your settings.")
   else mret tt);;
  push (OfMessage (userMessage w question));;
  history ← read_messages;
  response ← _callOpenAI w history;
  if decide (response = "")
  then mret tt
  else
    let aiMessage := mkAIMessage response in
    push (OfAIMessage aiMessage);;
    postMessage (mkEvent response_t response).

(** Its [catch] block. *)
Definition _handleQuestion_catch (error : Thrown) : M unit :=
  let errorMessage := message_or_String error in
  appendLine ("Error handling question: " +:+ errorMessage);;
  postMessage (mkEvent error_t errorMessage).

Definition _handleQuestion (w : World) (question : string) : M unit :=
  try_catch (_handleQuestion_try w question) _handleQuestion_catch.

(** The handler [_setupWebview] installs with [onDidReceiveMessage]: a
    [switch] on [message.command] with the one case ["askQuestion"], which
    passes [message.text] on. *)
Definition onDidReceiveMessage (w : World) (message : Inbound) : M unit :=
  if decide (command message = "askQuestion")
  then _handleQuestion w (text message)
  else mret tt.

(** The panel after the webview's messages were handled one after the
    other, each in its own surroundings. *)
Definition after (p : Panel) (deliveries : list (World * Inbound)) : Panel :=
  fold_left (fun q d => (onDidReceiveMessage d.1 d.2 q).2) deliveries p.

(** What [_callOpenAI] resolves to or rejects with; the panel it runs in has
    no part in it ([callOpenAI_run]). *)
Definition client_result (w : World) (messages : list Turn) : Completion string :=
  (_callOpenAI w messages fresh).1.

(** ** [out/webview/webview.html]: the script of the chat page

    The page keeps its state in the DOM and in the two variables
    [isLoading] and [currentImage].  Scrolling and focus are left out;
    [String.prototype.trim], the file reader and the two-second timer
    belong to the browser and come in as arguments or as separate steps. *)

Module Webview.

(** The [div.image-container] of a message: the [img] and, when the image
    has a name, the [span.image-filename]. *)
Record ImageContainer := mkImageContainer {
  img_src : string;
  img_alt : string;
  filename : option string
}.

(** A child of [#chat-container]: a message [div] with its class, text and
    [aria-label], or the [div#loading-indicator] with its spinner. *)
Inductive Child :=
| MessageDiv (className textContent aria_label : string)
             (imageContainer : option ImageContainer)
| LoadingDiv.

(** An entry of [event.target.files]. *)
Record File := mkFile {
  file_name : string;
  file_type : string
}.

Record Page := mkPage {
  chatContainer : list Child;
  questionInput_value : string;
  questionInput_disabled : bool;
  sendBtn_disabled : bool;
  uploadImageBtn_textContent : string;
  uploadImageBtn_title : string;
  isLoading : bool;
  currentImage : option Image;
  (** the calls of [vscode.postMessage] and of [alert], oldest first *)
  vscode_postMessage : list Inbound;
  alerts : list string
}.

(** [chatContainer.appendChild(node)]. *)
Definition appendChild (node : Child) (pg : Page) : Page :=
  mkPage (chatContainer pg ++ [node]) (questionInput_value pg)
         (questionInput_disabled pg) (sendBtn_disabled pg)
         (uploadImageBtn_textContent pg) (uploadImageBtn_title pg)
         (isLoading pg) (currentImage pg) (vscode_postMessage pg) (alerts pg).

(** [image.name] as a condition: a name that is there and not empty. *)
Definition shown_name (image : Image) : option string :=
  match name image with
  | Some n => if decide (n = "") then None else Some n
  | None => None
  end.

Definition addMessage (type content : string) (image : option Image)
    (pg : Page) : Page :=
  let label :=
    if decide (type = "user")
    then "You: " +:+ content
    else "Assistant: " +:+ content in
  let container :=
    match image with
    | Some im => Some (mkImageContainer (data im) "Uploaded image" (shown_name im))
    | None => None
    end in
  appendChild (MessageDiv ("message " +:+ type +:+ "-message") content label container) pg.

Definition showLoading (pg : Page) : Page :=
  if isLoading pg then pg
  else
    mkPage (chatContainer pg ++ [LoadingDiv]) (questionInput_value pg)
           true true
           (uploadImageBtn_textContent pg) (uploadImageBtn_title pg)
           true (currentImage pg) (vscode_postMessage pg) (alerts pg).

(** [document.getElementById('loading-indicator')] and, when it is found,
    [remove()]: the first such child goes. *)
Fixpoint remove_loading_indicator (children : list Child) : list Child :=
  match children with
  | [] => []
  | LoadingDiv :: rest => rest
  | c :: rest => c :: remove_loading_indicator rest
  end.

Definition hideLoading (pg : Page) : Page :=
  if isLoading pg
  then
    mkPage (remove_loading_indicator (chatContainer pg)) (questionInput_value pg)
           false false
           (uploadImageBtn_textContent pg) (uploadImageBtn_title pg)
           false (currentImage pg) (vscode_postMessage pg) (alerts pg)
  else pg.

(** The first file is read when its type starts with [image/]; the result
    names the file whose [reader.onload] is then pending. *)
Definition handleImageUpload (files : list File) (pg : Page) : Page * option File :=
  match files with
  | [] => (pg, None)
  | file :: _ =>
      if String.prefix "image/" (file_type file)
      then (pg, Some file)
      else
        (mkPage (chatContainer pg) (questionInput_value pg)
                (questionInput_disabled pg) (sendBtn_disabled pg)
                (uploadImageBtn_textContent pg) (uploadImageBtn_title pg)
                (isLoading pg) (currentImage pg) (vscode_postMessage pg)
                (alerts pg ++ ["Please select an image file"]),
         None)
  end.

(** [reader.onload] for [file], with [e.target.result]. *)
Definition reader_onload (file : File) (result : string) (pg : Page) : Page :=
  mkPage (chatContainer pg) (questionInput_value pg)
         (questionInput_disabled pg) (sendBtn_disabled pg)
         "✓" ("Image ready: " +:+ file_name file)
         (isLoading pg)
         (Some (mkImage result (file_type file) (Some (file_name file))))
         (vscode_postMessage pg) (alerts pg).

(** The callback [reader.onload] hands to [setTimeout(..., 2000)]. *)
Definition button_timeout (pg : Page) : Page :=
  mkPage (chatContainer pg) (questionInput_value pg)
         (questionInput_disabled pg) (sendBtn_disabled pg)
         "📷" "Change image"
         (isLoading pg) (currentImage pg) (vscode_postMessage pg) (alerts pg).

Definition sendMessage (trim : string -> string) (pg : Page) : Page :=
  let question := trim (questionInput_value pg) in
  if bool_decide (question <> "") || bool_decide (is_Some (currentImage pg))
  then
    let msgContent := if decide (question = "") then "Image:" else question in
    let pg1 := addMessage "user" msgContent (currentImage pg) pg in
    let pg2 := showLoading pg1 in
    mkPage (chatContainer pg2) ""
           (questionInput_disabled pg2) (sendBtn_disabled pg2)
           "📷" "Upload image"
           (isLoading pg2) None
           (vscode_postMessage pg2
            ++ [mkInbound "askQuestion" question (currentImage pg)])
           (alerts pg2)
  else pg.

(** The listener of [window]'s [message] event. *)
Definition onMessage (message : WebviewEvent) (pg : Page) : Page :=
  match ev_type message with
  | response_t => addMessage "ai" (ev_content message) None (hideLoading pg)
  | error_t =>
      addMessage "ai" ("Error: " +:+ ev_content message) None (hideLoading pg)
  end.

(** The page as the markup has it, and after the script has run: the
    greeting is its first message. *)
Definition markup : Page :=
  mkPage [] "" false false "📷" "Upload image" false None [] [].

Definition loaded : Page :=
  addMessage "ai" "Assistant is ready. How can I help you?" None markup.

(** What the script can do to the page after it has loaded. *)
Inductive Step :=
| Submit                                   (* the form's submit, or Enter *)
| Edit (value : string)                    (* the user edits the input *)
| Message (message : WebviewEvent)         (* the extension posts *)
| Choose (files : list File)               (* the file input changes *)
| Loaded (file : File) (result : string)   (* a reader finishes *)
| Timeout.                                 (* a button timer fires *)

Definition step (trim : string -> string) (pg : Page) (s : Step) : Page :=
  match s with
  | Submit => sendMessage trim pg
  | Edit value =>
      mkPage (chatContainer pg) value
             (questionInput_disabled pg) (sendBtn_disabled pg)
             (uploadImageBtn_textContent pg) (uploadImageBtn_title pg)
             (isLoading pg) (currentImage pg) (vscode_postMessage pg) (alerts pg)
  | Message message => onMessage message pg
  | Choose files => (handleImageUpload files pg).1
  | Loaded file result => reader_onload file result pg
  | Timeout => button_timeout pg
  end.

Definition is_message (c : Child) : bool :=
  match c with MessageDiv _ _ _ _ => true | LoadingDiv => false end.

(** The message [div]s of a child list, in order. *)
Definition bubbles (children : list Child) : list Child :=
  List.filter is_message children.

End Webview.

(** ** The page and the panel together

    What the page gives [vscode.postMessage] reaches the panel's
    [onDidReceiveMessage]; what the panel gives [webview.postMessage]
    reaches the page's listener.  [submit] is one submission of the form
    carried through both. *)
Definition submit (trim : string -> string) (w : World)
    (s : Webview.Page * Panel) : Webview.Page * Panel :=
  let pg := Webview.sendMessage trim s.1 in
  let outgoing :=
    drop (length (Webview.vscode_postMessage s.1)) (Webview.vscode_postMessage pg) in
  let p := after s.2 ((fun m => (w, m)) <$> outgoing) in
  let incoming := drop (length (posted s.2)) (posted p) in
  (fold_left (fun g ev => Webview.onMessage ev g) incoming pg, p).

(** ** [_getWebviewContent] and [dispose] *)

(** [`${error}`]: [Error.prototype.toString] for an error, [String(...)]
    for any other value. *)
Definition template_String (e : Thrown) : string :=
  match e with
  | ErrorObject m => if decide (m = "") then "Error" else "Error: " +:+ m
  | Axios a =>
      if decide (axios_message a = "") then "AxiosError"
      else "AxiosError: " +:+ axios_message a
  | NotAnError s => s
  end.

(** [path.join], [fs.existsSync] and [fs.readFileSync(_, "utf8")], which
    returns the contents or throws. *)
Record Disk := mkDisk {
  path_join : list string -> string;
  existsSync : string -> bool;
  readFileSync : string -> Completion string
}.

(** A call that returns or throws and leaves the panel alone. *)
Definition call {A} (c : Completion A) : M A := fun p => (c, p).

Definition _getWebviewContent (fs : Disk) (_extensionPath : string) : M string :=
  try_catch
    (let htmlPath := path_join fs [_extensionPath; "out"; "webview"; "webview.html"] in
     (if existsSync fs htmlPath
      then mret tt
      else throw (ErrorObject ("HTML file not found at: " +:+ htmlPath)));;
     call (readFileSync fs htmlPath))
    (fun error =>
       let errorMessage := "Error loading webview content: " +:+ template_String error in
       appendLine errorMessage;;
       mret ("<html><body><h1>Error loading content</h1><p>" +:+ errorMessage
             +:+ "</p></body></html>")).

(** What [dispose] touches: the static [AIPanel.currentPanel], the
    [_disposables] array, whose entries the loop tests before it uses them,
    the calls made on the host's objects, and whether the webview panel is
    still live: not disposed yet, with the listener [_setupWebview] gave
    it, [this._panel.onDidDispose(() => this.dispose(), ...)], waiting. *)
Inductive HostCall :=
| panel_dispose
| disposable_dispose (d : nat).

Record Lifetime := mkLifetime {
  currentPanel : option nat;
  _disposables : list (option nat);
  host_calls : list HostCall;
  panel_live : bool
}.

(** [while (this._disposables.length) { const disposable =
    this._disposables.pop(); if (disposable) disposable.dispose(); }] *)
Fixpoint dispose_loop (fuel : nat) (l : Lifetime) : Lifetime :=
  match fuel with
  | 0 => l
  | S fuel' =>
      if decide (length (_disposables l) = 0) then l
      else
        let disposable := mjoin (last (_disposables l)) in
        let popped := removelast (_disposables l) in
        dispose_loop fuel'
          (mkLifetime (currentPanel l) popped
             (match disposable with
              | Some d => host_calls l ++ [disposable_dispose d]
              | None => host_calls l
              end)
             (panel_live l))
  end.

(** [this._panel.dispose()]: the call is made; a live panel is then
    disposed and its [onDidDispose] fires, which runs the listener before
    the call returns; on a disposed panel nothing more happens. *)
Definition _panel_dispose (listener : Lifetime -> Lifetime) (l : Lifetime) : Lifetime :=
  let called :=
    mkLifetime (currentPanel l) (_disposables l)
               (host_calls l ++ [panel_dispose]) false in
  if panel_live l then listener called else called.

(** The body of [dispose()], for a given listener on the panel; every turn
    of the loop pops one entry, so the array's length is all the fuel the
    loop can use. *)
Definition dispose_with (listener : Lifetime -> Lifetime) (l : Lifetime) : Lifetime :=
  let l1 := mkLifetime None (_disposables l) (host_calls l) (panel_live l) in
  let l2 := _panel_dispose listener l1 in
  dispose_loop (length (_disposables l2)) l2.

(** [dispose()].  The listener is [() => this.dispose()]: a direct call on
    a live panel comes back into [dispose] through [this._panel.dispose()].
    The call that comes back finds the panel disposed, so its own
    [this._panel.dispose()] runs no listener, and one unfolding of the
    listener is the whole function ([dispose_releases_everything] has the
    equation [dispose l = dispose_with dispose l]). *)
Definition dispose (l : Lifetime) : Lifetime :=
  dispose_with (dispose_with (fun l' => l')) l.

(** ** Sample surroundings *)

Definition answers (key : string) (s : Settled) : World :=
  mkWorld key "gpt-4" "https://api.openai.com/v1/chat/completions" 1000
          1700000000000 (fun _ => s) (fun _ => "{}").

Definition reply (content : string) : Settled :=
  Resolved (mkAIResponse (Some [mkChoice "assistant" content]) None).

Definition http_error (code : Z) (message : string) : Settled :=
  Rejected (Axios (mkAxiosError
    ("Request failed with status code " +:+ pretty code)
    (Some (mkAxiosResponse code
       (Some (mkAIResponse None
          (Some (mkApiError message "invalid_request_error" None)))))))).

(** The webview's message for a question typed with a picture attached. *)
Definition picture : Image :=
  mkImage "data:image/png;base64,iVBORw0KGgo=" "image/png" (Some "shot.png").

Definition ask (question : string) (attached : option Image) : Inbound :=
  mkInbound "askQuestion" question attached.

(** A panel without a key, and keyed panels whose provider answers 42,
    answers the empty text, answers with no choice at all, breaks down, or
    turns the key away with and without a message in the error body. *)
Definition no_key : World := answers "" (reply "42").
Definition answers_42 : World := answers "sk-test" (reply "42").
Definition answers_nothing : World := answers "sk-test" (reply "").
Definition no_choices : World :=
  answers "sk-test" (Resolved (mkAIResponse (Some []) None)).
Definition server_error : World :=
  answers "sk-test" (http_error 500 "The server had an error").
Definition invalid_key : World := answers "sk-bad" (http_error 401 "invalid key").
Definition blank_error : World := answers "sk-bad" (http_error 401 "").

(** A [trim] for plain ASCII text: blanks, tabs and line ends go from both
    ends. *)
Fixpoint trim_start (s : string) : string :=
  match s with
  | String c rest => if Ascii.is_space c then trim_start rest else s
  | EmptyString => EmptyString
  end.

Definition ascii_trim (s : string) : string :=
  String.rev (trim_start (String.rev (trim_start s))).

(** The loaded page with [value] typed into the input, and with a picture
    chosen as well. *)
Definition typed (value : string) : Webview.Page :=
  Webview.step ascii_trim Webview.loaded (Webview.Edit value).

Definition with_picture (value : string) : Webview.Page :=
  Webview.reader_onload (Webview.mkFile "shot.png" "image/png")
    "data:image/png;base64,iVBORw0KGgo=" (typed value).


Definition incomplete : Disk :=
  mkDisk (String.concat "/") (fun _ => false)
         (fun _ => Throw (ErrorObject "ENOENT: no such file or directory")).

(** A delivery the provider answers: an [askQuestion] in surroundings with
    a key, where every request gets a first choice with some text. *)
Definition answered (d : World * Inbound) : Prop :=
  command d.2 = "askQuestion"
  /\ getApiKey d.1 <> ""
  /\ forall rq,
       match axios_post d.1 rq with
       | Resolved r =>
           match choices r with
           | Some (c :: _) => c_content c <> ""
           | _ => False
           end
       | Rejected _ => False
       end.

(** The message of the error [_handleQuestion] throws without a key. *)
Definition no_key_message : string :=
  "OpenAI API key is not configured. Please set it in your settings.".

(** The page is tidy when it shows one loading indicator while [isLoading]
    is set and none otherwise, and the input and the send button are
    disabled exactly then. *)
Definition tidy (pg : Webview.Page) : Prop :=
  length (List.filter (fun c => negb (Webview.is_message c)) (Webview.chatContainer pg))
  = (if Webview.isLoading pg then 1 else 0)
  /\ Webview.questionInput_disabled pg = Webview.isLoading pg
  /\ Webview.sendBtn_disabled pg = Webview.isLoading pg.

(** The texts of the user's messages on the page, in order. *)
Definition user_texts (children : list Webview.Child) : list string :=
  omap (fun c =>
          match c with
          | Webview.MessageDiv cls txt _ _ =>
              if decide (cls = "message user-message") then Some txt else None
          | Webview.LoadingDiv => None
          end) children.

(** What the page shows for a message it sends. *)
Definition shown_text (m : Inbound) : string :=
  if decide (text m = "") then "Image:" else text m.

(** The message [div] the page adds for the user and for the assistant. *)
Definition user_div (content : string) (image : option Image) : Webview.Child :=
  Webview.MessageDiv "message user-message" content ("You: " +:+ content)
    (match image with
     | Some im =>
         Some (Webview.mkImageContainer (data im) "Uploaded image"
                 (Webview.shown_name im))
     | None => None
     end).

Definition ai_div (content : string) : Webview.Child :=
  Webview.MessageDiv "message ai-message" content ("Assistant: " +:+ content) None.

(** * Properties *)

(** ** How the two methods run *)

Ltac run :=
  unfold try_catch, mbind, M_bind, mret, M_ret, throw, appendLine, push,
    read_messages, postMessage, await_post; simpl.

Lemma callOpenAI_run w msgs p :
  let r := _callOpenAI w msgs p in
  r.1 = client_result w msgs
  /\ _messages r.2 = _messages p
  /\ posted r.2 = posted p
  /\ network r.2 = network p ++ [request w (formattedMessages msgs)].
Proof.
  unfold client_result, _callOpenAI. run.
  destruct (axios_post w _) as [d | e]; simpl.
  - destruct (choices d) as [[| c cs] |]; simpl; auto.
  - destruct e; simpl; auto.
Qed.

Lemma client_result_resolved w msgs d :
  axios_post w (request w (formattedMessages msgs)) = Resolved d ->
  client_result w msgs =
    match choices d with
    | Some (c :: _) => Normal (c_content c)
    | _ => Throw (ErrorObject "Error calling OpenAI API: No response from OpenAI API")
    end.
Proof.
  intros H. unfold client_result, _callOpenAI. run. rewrite H. simpl.
  destruct (choices d) as [[| c cs] |]; reflexivity.
Qed.

Lemma client_result_rejected w msgs e :
  axios_post w (request w (formattedMessages msgs)) = Rejected e ->
  client_result w msgs =
    match e with
    | Axios a =>
        Throw (ErrorObject
          ("API error: " +:+ or_else (response_error_message a) (axios_message a)))
    | _ =>
        Throw (ErrorObject ("Error calling OpenAI API: " +:+ message_or_String e))
    end.
Proof.
  intros H. unfold client_result, _callOpenAI. run. rewrite H. simpl.
  destruct e; reflexivity.
Qed.

(** Whatever [_callOpenAI] throws is an [Error] it made itself. *)
Lemma client_result_throws_Error w msgs e :
  client_result w msgs = Throw e -> exists m, e = ErrorObject m.
Proof.
  destruct (axios_post w (request w (formattedMessages msgs))) as [d | x] eqn:H.
  - rewrite (client_result_resolved _ _ _ H).
    destruct (choices d) as [[| c cs] |]; intros [= <-]; eauto.
  - rewrite (client_result_rejected _ _ _ H).
    destruct x; intros [= <-]; eauto.
Qed.

Arguments _callOpenAI : simpl never.

(** Without a key the [try] block throws before it touches the log or the
    network. *)
Lemma handleQuestion_try_no_key w q p :
  getApiKey w = "" ->
  _handleQuestion_try w q p =
    (Throw (ErrorObject
       "OpenAI API key is not configured. Please set it in your settings."),
     mkPanel (_messages p) (_outputChannel p ++ ["Received question: " +:+ q])
             (posted p) (network p)).
Proof.
  intros H. unfold _handleQuestion_try. run.
  destruct (decide (getApiKey w = "")); [reflexivity | contradiction].
Qed.

(** With a key, the call pushes the user turn, sends the whole log and then
    goes one of three ways with what the client gives back. *)
Lemma handleQuestion_with_key w q p :
  getApiKey w <> "" ->
  let log := _messages p ++ [OfMessage (userMessage w q)] in
  let r := _handleQuestion w q p in
  r.1 = Normal tt
  /\ network r.2 = network p ++ [request w (formattedMessages log)]
  /\ match client_result w log with
     | Normal text =>
         if decide (text = "")
         then _messages r.2 = log /\ posted r.2 = posted p
         else _messages r.2 = log ++ [OfAIMessage (mkAIMessage text)]
              /\ posted r.2 = posted p ++ [mkEvent response_t text]
     | Throw e =>
         _messages r.2 = log
         /\ posted r.2 = posted p ++ [mkEvent error_t (message_or_String e)]
     end.
Proof.
  intros H log r. subst r. unfold _handleQuestion, _handleQuestion_try, _handleQuestion_catch.
  run.
  destruct (decide (getApiKey w = "")) as [E | _]; [contradiction |]. simpl.
  match goal with |- context [_callOpenAI w ?l ?s] =>
    pose proof (callOpenAI_run w l s) as R; simpl in R;
    destruct (_callOpenAI w l s) as [c p'] end.
  simpl in R. destruct R as (Rc & Rm & Rp & Rn). fold log in Rc, Rn.
  rewrite <- Rc. destruct c as [text | e]; simpl.
  - destruct (decide (text = "")); simpl; rewrite ?Rm, ?Rp, ?Rn; auto.
  - rewrite ?Rm, ?Rp, ?Rn; auto.
Qed.

(** ** The missing API key *)

(** C1.  When the API key is not configured, [_handleQuestion] fails before
    any HTTP exchange is started, leaves the message log as it was (its
    length grows by 0) and posts one error event whose content mentions
    that the API key is not configured. *)
Theorem missing_key_drops_question w q p :
  getApiKey w = "" ->
  let r := _handleQuestion w q p in
  (exists m, (_handleQuestion_try w q p).1 = Throw (ErrorObject m))
  /\ r.1 = Normal tt
  /\ network r.2 = network p
  /\ _messages r.2 = _messages p
  /\ length (_messages r.2) = length (_messages p) + 0
  /\ exists c, posted r.2 = posted p ++ [mkEvent error_t c]
       /\ exists before behind,
            c = before +:+ "API key is not configured" +:+ behind.
Proof.
  intros H r. subst r. unfold _handleQuestion, try_catch.
  rewrite (handleQuestion_try_no_key w q p H). simpl.
  split; [eauto |]. repeat split; [lia |].
  eexists. split; [reflexivity |].
  exists "OpenAI ", ". Please set it in your settings.". reflexivity.
Qed.

Lemma missing_key_drops_question_witness :
  getApiKey no_key = ""
  /\ network (_handleQuestion no_key "What is 6*7?" fresh).2 = [].
Proof.
  split; [reflexivity |].
  exact (proj1 (proj2 (proj2
    (missing_key_drops_question no_key "What is 6*7?" fresh eq_refl)))).
Defined.

(** ** A successful exchange *)

(** C2 as stated fails when the provider's text is empty: the key is set,
    the client succeeds with [""], and the log grows by one turn only, with
    no event posted. *)
Lemma empty_text_appends_one_turn :
  getApiKey answers_nothing <> ""
  /\ client_result answers_nothing
       (_messages fresh ++ [OfMessage (userMessage answers_nothing "ping")])
     = Normal ""
  /\ length (_messages (_handleQuestion answers_nothing "ping" fresh).2)
     <> length (_messages fresh) + 2
  /\ posted (_handleQuestion answers_nothing "ping" fresh).2
     <> posted fresh ++ [mkEvent response_t ""].
Proof.
  repeat split; [discriminate | | discriminate]. vm_compute. lia.
Qed.

(** C2, amended.  When the key is set and the client succeeds with a text
    that is not empty, the log grows by exactly two turns, the user turn and
    then an assistant turn holding that text, and one response event with
    the same text is posted. *)
Theorem success_appends_two_turns w q p text :
  getApiKey w <> "" ->
  client_result w (_messages p ++ [OfMessage (userMessage w q)]) = Normal text ->
  text <> "" ->
  let r := _handleQuestion w q p in
  r.1 = Normal tt
  /\ _messages r.2 =
       _messages p ++ [OfMessage (userMessage w q); OfAIMessage (mkAIMessage text)]
  /\ length (_messages r.2) = length (_messages p) + 2
  /\ posted r.2 = posted p ++ [mkEvent response_t text].
Proof.
  intros K C T r.
  destruct (handleQuestion_with_key w q p K) as (R1 & _ & R3).
  fold r in R1, R3. rewrite C in R3.
  destruct (decide (text = "")); [contradiction |]. destruct R3 as [Rm Rp].
  rewrite Rm, <- app_assoc. simpl.
  repeat split; auto. rewrite length_app. simpl. lia.
Qed.

Lemma success_appends_two_turns_witness :
  getApiKey answers_42 <> ""
  /\ posted (_handleQuestion answers_42 "What is 6*7?" fresh).2
     = [mkEvent response_t "42"].
Proof.
  split; [discriminate |].
  refine (proj2 (proj2 (proj2
    (success_appends_two_turns answers_42 "What is 6*7?" fresh "42"
       _ eq_refl _)))); discriminate.
Defined.

(** ** A failed exchange *)

(** C3.  When the key is set and the client fails, the log grows by exactly
    one turn, the user turn, no assistant turn is added, and one error
    event carrying the failure's message is posted. *)
Theorem failure_keeps_user_turn_only w q p e :
  getApiKey w <> "" ->
  client_result w (_messages p ++ [OfMessage (userMessage w q)]) = Throw e ->
  let r := _handleQuestion w q p in
  r.1 = Normal tt
  /\ _messages r.2 = _messages p ++ [OfMessage (userMessage w q)]
  /\ length (_messages r.2) = length (_messages p) + 1
  /\ (forall a, OfAIMessage a ∈ _messages r.2 -> OfAIMessage a ∈ _messages p)
  /\ exists m, e = ErrorObject m /\ posted r.2 = posted p ++ [mkEvent error_t m].
Proof.
  intros K C r.
  destruct (handleQuestion_with_key w q p K) as (R1 & _ & R3).
  fold r in R1, R3. rewrite C in R3. destruct R3 as [Rm Rp].
  rewrite Rm. repeat split; auto.
  - rewrite length_app. simpl. lia.
  - intros a [I | I]%elem_of_app; [exact I |].
    apply list_elem_of_singleton in I. discriminate.
  - destruct (client_result_throws_Error _ _ _ C) as [m ->]. eauto.
Qed.

Lemma failure_keeps_user_turn_only_witness :
  getApiKey server_error <> ""
  /\ length (_messages (_handleQuestion server_error "ping" fresh).2) = 1.
Proof.
  split; [discriminate |].
  refine (proj1 (proj2 (proj2
    (failure_keeps_user_turn_only server_error "ping" fresh
       (ErrorObject "API error: The server had an error") _ eq_refl)))).
  discriminate.
Defined.

(** ** The user turn *)

(** C4, as far as the code goes.  Once the key is set, an [askQuestion]
    message puts a turn at the end of the log with the role [user], the
    submitted text and the current time, and the request then sent already
    holds it.  The turn carries no image, whatever the message attached. *)
Theorem user_turn_has_no_image w m p :
  command m = "askQuestion" ->
  getApiKey w <> "" ->
  let r := onDidReceiveMessage w m p in
  exists t,
    _messages r.2 !! length (_messages p) = Some (OfMessage t)
    /\ role t = user
    /\ content t = text m
    /\ timestamp t = Some (Date_now w)
    /\ image t = None
    /\ network r.2 =
         network p ++ [request w (formattedMessages (_messages p ++ [OfMessage t]))].
Proof.
  intros C K r. subst r. unfold onDidReceiveMessage.
  destruct (decide (command m = "askQuestion")) as [_ | N]; [| contradiction].
  destruct (handleQuestion_with_key w (text m) p K) as (_ & Rn & R3).
  exists (userMessage w (text m)). repeat split; [| exact Rn].
  assert (exists rest, _messages (_handleQuestion w (text m) p).2
                       = (_messages p ++ [OfMessage (userMessage w (text m))]) ++ rest)
    as [rest ->].
  { destruct (client_result w _) as [txt | e].
    - destruct (decide (txt = "")) as [E | E]; destruct R3 as [-> _]; eauto.
      exists []. now rewrite app_nil_r.
    - destruct R3 as [-> _]. exists []. now rewrite app_nil_r. }
  rewrite <- app_assoc. simpl. now apply list_lookup_middle.
Qed.

Lemma user_turn_has_no_image_witness :
  in_image (ask "What is in this picture?" (Some picture)) = Some picture
  /\ exists t,
       _messages (onDidReceiveMessage answers_42
                    (ask "What is in this picture?" (Some picture)) fresh).2 !! 0
       = Some (OfMessage t)
       /\ image t = None.
Proof.
  split; [reflexivity |].
  destruct (user_turn_has_no_image answers_42
              (ask "What is in this picture?" (Some picture)) fresh eq_refl)
    as (t & Ht & _ & _ & _ & Hi & _); [discriminate |].
  exists t. split; [exact Ht | exact Hi].
Defined.

(** ** The request envelope *)


(** ** A response without choices *)

(** C6 as stated fails on the message: with an empty [choices] array the
    client does not fail with ["No response from API"], and the error event
    does not carry that text. *)
Lemma no_choices_message_differs :
  axios_post no_choices
    (request no_choices
       (formattedMessages [OfMessage (userMessage no_choices "ping")]))
  = Resolved (mkAIResponse (Some []) None)
  /\ client_result no_choices [OfMessage (userMessage no_choices "ping")]
     <> Throw (ErrorObject "No response from API")
  /\ posted (_handleQuestion no_choices "ping" fresh).2
     <> [mkEvent error_t "No response from API"].
Proof.
  split; [reflexivity |].
  split; [vm_compute; discriminate | vm_compute; discriminate].
Qed.

(** C6, amended.  When the key is set and the provider answers with an
    empty [choices] array, the client fails with an [Error] whose message is
    ["Error calling OpenAI API: No response from OpenAI API"], one error
    event carrying that message is posted, and the log gains the user turn
    and no assistant turn. *)
Theorem empty_choices_reported w q p d :
  getApiKey w <> "" ->
  axios_post w
    (request w (formattedMessages (_messages p ++ [OfMessage (userMessage w q)])))
  = Resolved d ->
  choices d = Some [] ->
  let r := _handleQuestion w q p in
  client_result w (_messages p ++ [OfMessage (userMessage w q)])
  = Throw (ErrorObject "Error calling OpenAI API: No response from OpenAI API")
  /\ r.1 = Normal tt
  /\ posted r.2
     = posted p
       ++ [mkEvent error_t "Error calling OpenAI API: No response from OpenAI API"]
  /\ _messages r.2 = _messages p ++ [OfMessage (userMessage w q)].
Proof.
  intros K A C r.
  destruct (handleQuestion_with_key w q p K) as (R1 & _ & R3). fold r in R1, R3.
  rewrite (client_result_resolved _ _ _ A), C in *.
  destruct R3 as [Rm Rp]. auto.
Qed.

Lemma empty_choices_reported_witness :
  getApiKey no_choices <> ""
  /\ posted (_handleQuestion no_choices "ping" fresh).2
     = [mkEvent error_t "Error calling OpenAI API: No response from OpenAI API"].
Proof.
  split; [discriminate |].
  refine (proj1 (proj2 (proj2
    (empty_choices_reported no_choices "ping" fresh (mkAIResponse (Some []) None)
       _ eq_refl eq_refl)))).
  discriminate.
Defined.

(** ** An HTTP failure *)

(** C7 as stated fails when the error body's message is present but empty:
    the event then carries the transport's text, not the body's field. *)
Lemma blank_body_message_is_skipped :
  axios_post blank_error
    (request blank_error
       (formattedMessages [OfMessage (userMessage blank_error "ping")]))
  = Rejected (Axios (mkAxiosError "Request failed with status code 401"
      (Some (mkAxiosResponse 401
         (Some (mkAIResponse None
            (Some (mkApiError "" "invalid_request_error" None))))))))
  /\ posted (_handleQuestion blank_error "ping" fresh).2
     <> [mkEvent error_t ("API error: " +:+ "")]
  /\ posted (_handleQuestion blank_error "ping" fresh).2
     = [mkEvent error_t "API error: Request failed with status code 401"].
Proof.
  split; [reflexivity |].
  split; [vm_compute; discriminate | reflexivity].
Qed.

(** C7, amended.  When the key is set and [axios.post] fails with an
    [AxiosError], the event posted is an error whose content is
    ["API error: "] followed by the [message] field of the error body when
    that field is present and not empty, and by the transport's text when
    the field is absent or empty; the log gains the user turn only. *)
Theorem api_error_message_priority w q p e :
  getApiKey w <> "" ->
  axios_post w
    (request w (formattedMessages (_messages p ++ [OfMessage (userMessage w q)])))
  = Rejected (Axios e) ->
  let r := _handleQuestion w q p in
  (forall rs d err,
     response e = Some rs -> response_data rs = Some d -> error d = Some err ->
     e_message err <> "" ->
     posted r.2 = posted p ++ [mkEvent error_t ("API error: " +:+ e_message err)])
  /\ (response_error_message e = None \/ response_error_message e = Some "" ->
      posted r.2 = posted p ++ [mkEvent error_t ("API error: " +:+ axios_message e)])
  /\ r.1 = Normal tt
  /\ _messages r.2 = _messages p ++ [OfMessage (userMessage w q)].
Proof.
  intros K A r.
  destruct (handleQuestion_with_key w q p K) as (R1 & _ & R3). fold r in R1, R3.
  rewrite (client_result_rejected _ _ _ A) in R3. simpl in R3.
  destruct R3 as [Rm Rp]. repeat split; auto.
  - intros rs d err Hr Hd He Hn. rewrite Rp.
    unfold response_error_message. rewrite Hr. simpl. rewrite Hd. simpl.
    rewrite He. simpl. now destruct (decide (e_message err = "")).
  - intros [H | H]; rewrite Rp, H; reflexivity.
Qed.

Lemma api_error_message_priority_witness :
  getApiKey invalid_key <> ""
  /\ posted (_handleQuestion invalid_key "ping" fresh).2
     = [mkEvent error_t "API error: invalid key"]
  /\ _messages (_handleQuestion invalid_key "ping" fresh).2
     = [OfMessage (userMessage invalid_key "ping")].
Proof.
  split; [discriminate |].
  destruct (api_error_message_priority invalid_key "ping" fresh
              (mkAxiosError "Request failed with status code 401"
                 (Some (mkAxiosResponse 401
                    (Some (mkAIResponse None
                       (Some (mkApiError "invalid key" "invalid_request_error" None)))))))
              ltac:(discriminate) eq_refl)
    as (Hbody & _ & _ & Hlog).
  split; [| exact Hlog].
  refine (Hbody _ _ _ eq_refl eq_refl eq_refl _). discriminate.
Defined.

(** ** The log only grows *)

Lemma handleQuestion_extends_log w q p :
  _messages p `prefix_of` _messages (_handleQuestion w q p).2.
Proof.
  destruct (decide (getApiKey w = "")) as [E | K].
  - unfold _handleQuestion, try_catch.
    rewrite (handleQuestion_try_no_key w q p E). simpl. reflexivity.
  - destruct (handleQuestion_with_key w q p K) as (_ & _ & R3).
    destruct (client_result w _) as [txt | e].
    + destruct (decide (txt = "")) as [E | E]; destruct R3 as [-> _].
      * now apply prefix_app_r.
      * now do 2 apply prefix_app_r.
    + destruct R3 as [-> _]. now apply prefix_app_r.
Qed.

Lemma onDidReceiveMessage_extends_log w m p :
  _messages p `prefix_of` _messages (onDidReceiveMessage w m p).2.
Proof.
  unfold onDidReceiveMessage.
  destruct (decide (command m = "askQuestion")) as [_ | _].
  - apply handleQuestion_extends_log.
  - reflexivity.
Qed.

(** C8.  The log before a call of [_handleQuestion] is a prefix of the log
    after it, and so is the log before any sequence of webview messages a
    prefix of the log after them: turns are added at the end and nothing
    that was there is changed, removed or moved. *)
Theorem message_log_append_only :
  (forall w q p, _messages p `prefix_of` _messages (_handleQuestion w q p).2)
  /\ (forall deliveries p, _messages p `prefix_of` _messages (after p deliveries)).
Proof.
  split; [exact handleQuestion_extends_log |].
  unfold after. induction deliveries as [| [w m] ds IH]; intros p; simpl.
  - reflexivity.
  - etransitivity; [apply (onDidReceiveMessage_extends_log w m) | apply IH].
Qed.

(** ** Nothing escapes *)

(** C9.  [_handleQuestion] completes normally in every surroundings, for
    every question and every panel.  Whatever its [try] block throws is
    turned into text, an error's own message and any other value's string
    form, which is logged and posted as one error event; a [try] block
    that completes leaves the panel as it made it.  Every way the call can
    fail ends so: the missing key with its message, a response without
    choices and a thrown error or other value behind ["Error calling OpenAI
    API: "], an HTTP failure behind ["API error: "]. *)
Theorem handleQuestion_never_throws w q p :
  let r := _handleQuestion w q p in
  let text := fun e =>
    match e with
    | ErrorObject m => m
    | Axios a => axios_message a
    | NotAnError s => s
    end in
  r.1 = Normal tt
  /\ (forall e p1,
        _handleQuestion_catch e p1
        = (Normal tt,
           mkPanel (_messages p1)
                   (_outputChannel p1 ++ ["Error handling question: " +:+ text e])
                   (posted p1 ++ [mkEvent error_t (text e)])
                   (network p1)))
  /\ match _handleQuestion_try w q p with
     | (Normal _, p1) => r.2 = p1
     | (Throw e, p1) =>
         r.2 = mkPanel (_messages p1)
                       (_outputChannel p1 ++ ["Error handling question: " +:+ text e])
                       (posted p1 ++ [mkEvent error_t (text e)])
                       (network p1)
     end
  /\ if decide (getApiKey w = "")
     then posted r.2
          = posted p
            ++ [mkEvent error_t
                  "OpenAI API key is not configured. Please set it in your settings."]
     else
       match axios_post w
               (request w
                  (formattedMessages (_messages p ++ [OfMessage (userMessage w q)])))
       with
       | Resolved d =>
           match choices d with
           | Some (c :: _) =>
               if decide (c_content c = "")
               then posted r.2 = posted p
               else posted r.2 = posted p ++ [mkEvent response_t (c_content c)]
           | _ =>
               posted r.2
               = posted p
                 ++ [mkEvent error_t
                       "Error calling OpenAI API: No response from OpenAI API"]
           end
       | Rejected (ErrorObject m) =>
           posted r.2
           = posted p ++ [mkEvent error_t ("Error calling OpenAI API: " +:+ m)]
       | Rejected (NotAnError s) =>
           posted r.2
           = posted p ++ [mkEvent error_t ("Error calling OpenAI API: " +:+ s)]
       | Rejected (Axios a) =>
           posted r.2
           = posted p
             ++ [mkEvent error_t
                   ("API error: "
                    +:+ match response a with
                        | Some rs =>
                            match response_data rs with
                            | Some d =>
                                match error d with
                                | Some err =>
                                    if decide (e_message err = "")
                                    then axios_message a
                                    else e_message err
                                | None => axios_message a
                                end
                            | None => axios_message a
                            end
                        | None => axios_message a
                        end)]
       end.
Proof.
  intros r text. subst r.
  split; [| split; [| split]].
  - unfold _handleQuestion, try_catch.
    destruct (_handleQuestion_try w q p) as [[[] | e] p1]; reflexivity.
  - intros e p1. destruct e; reflexivity.
  - unfold _handleQuestion, try_catch.
    destruct (_handleQuestion_try w q p) as [[[] | e] p1]; [reflexivity |].
    destruct e; reflexivity.
  - destruct (decide (getApiKey w = "")) as [E | K].
    + unfold _handleQuestion, try_catch.
      now rewrite (handleQuestion_try_no_key w q p E).
    + destruct (handleQuestion_with_key w q p K) as (_ & _ & R3).
      destruct (axios_post w _) as [d | x] eqn:A.
      * rewrite (client_result_resolved _ _ _ A) in R3.
        destruct (choices d) as [[| c cs] |]; try (destruct R3 as [_ ->]; reflexivity).
        destruct (decide (c_content c = "")); destruct R3 as [_ ->]; reflexivity.
      * rewrite (client_result_rejected _ _ _ A) in R3.
        destruct x as [m | a | s]; destruct R3 as [_ ->]; try reflexivity.
        unfold or_else, response_error_message. simpl.
        destruct (response a) as [rs |]; [| reflexivity]. simpl.
        destruct (response_data rs) as [d |]; [| reflexivity]. simpl.
        destruct (error d) as [err |]; reflexivity.
Qed.

(** ** The empty answer *)

(** C10.  When the key is set and the client succeeds with the empty
    string, [_handleQuestion] adds the user turn and nothing else to the
    log and posts no event at all. *)
Theorem empty_text_is_silent w q p :
  getApiKey w <> "" ->
  client_result w (_messages p ++ [OfMessage (userMessage w q)]) = Normal "" ->
  let r := _handleQuestion w q p in
  r.1 = Normal tt
  /\ _messages r.2 = _messages p ++ [OfMessage (userMessage w q)]
  /\ posted r.2 = posted p.
Proof.
  intros K C r.
  destruct (handleQuestion_with_key w q p K) as (R1 & _ & R3). fold r in R1, R3.
  rewrite C in R3. simpl in R3. destruct R3 as [Rm Rp]. auto.
Qed.

Lemma empty_text_is_silent_witness :
  getApiKey answers_nothing <> ""
  /\ posted (_handleQuestion answers_nothing "ping" fresh).2 = [].
Proof.
  split; [discriminate |].
  refine (proj2 (proj2
    (empty_text_is_silent answers_nothing "ping" fresh _ eq_refl))).
  discriminate.
Defined.

(** * Further properties of the panel *)

(** ** One request, one event *)

(** X1.  A call of [_handleQuestion] starts no HTTP exchange when the key is
    missing and exactly one when it is set, whatever the provider does with
    it: to the configured endpoint, with the key as bearer token, and with
    one message more than the log held before. *)
Theorem one_request_per_question w q p :
  let r := _handleQuestion w q p in
  (getApiKey w = "" /\ network r.2 = network p)
  \/ (getApiKey w <> ""
      /\ exists rq,
           network r.2 = network p ++ [rq]
           /\ url rq = OPENAI_API_ENDPOINT w
           /\ headers rq = [("Content-Type", "application/json");
                            ("Authorization", "Bearer " +:+ getApiKey w)]
           /\ length (messages (body rq)) = length (_messages p) + 1).
Proof.
  intros r. subst r. destruct (decide (getApiKey w = "")) as [E | K].
  - left. split; [exact E |]. unfold _handleQuestion, try_catch.
    now rewrite (handleQuestion_try_no_key w q p E).
  - right. split; [exact K |].
    destruct (handleQuestion_with_key w q p K) as (_ & Rn & _).
    eexists. split; [exact Rn |]. simpl. repeat split.
    unfold formattedMessages. rewrite length_map, length_app. simpl. lia.
Qed.

Lemma client_result_messages w msgs e :
  client_result w msgs = Throw e ->
  exists s, e = ErrorObject ("API error: " +:+ s)
            \/ e = ErrorObject ("Error calling OpenAI API: " +:+ s).
Proof.
  destruct (axios_post w (request w (formattedMessages msgs))) as [d | x] eqn:H.
  - rewrite (client_result_resolved _ _ _ H).
    destruct (choices d) as [[| c cs] |]; intros [= <-]; eauto.
  - rewrite (client_result_rejected _ _ _ H).
    destruct x; intros [= <-]; eauto.
Qed.

(** X2.  A call of [_handleQuestion] posts nothing, or one response event
    with a text that is not empty, or one error event; the error's content
    is the missing-key message or starts with ["API error: "] or with
    ["Error calling OpenAI API: "]. *)
Theorem posted_event_shapes w q p :
  let r := _handleQuestion w q p in
  posted r.2 = posted p
  \/ (exists txt, txt <> "" /\ posted r.2 = posted p ++ [mkEvent response_t txt])
  \/ (exists m,
        posted r.2 = posted p ++ [mkEvent error_t m]
        /\ (m = no_key_message
            \/ exists s, m = "API error: " +:+ s
                         \/ m = "Error calling OpenAI API: " +:+ s)).
Proof.
  intros r. subst r. destruct (decide (getApiKey w = "")) as [E | K].
  - right; right. exists no_key_message. split; [| now left].
    unfold _handleQuestion, try_catch.
    now rewrite (handleQuestion_try_no_key w q p E).
  - destruct (handleQuestion_with_key w q p K) as (_ & _ & R3).
    destruct (client_result w _) as [txt | e] eqn:C.
    + destruct (decide (txt = "")) as [E | E]; destruct R3 as [_ Rp].
      * now left.
      * right; left. eauto.
    + destruct R3 as [_ Rp]. right; right.
      destruct (client_result_messages _ _ _ C) as [s [-> | ->]];
        eexists; (split; [exact Rp |]); right; exists s; auto.
Qed.

(** ** What the client reads from a response *)

(** X3.  When the key is set and the response has several choices, the
    first one alone counts: its content, when not empty, becomes the
    assistant turn and the response event, whatever the other choices
    hold. *)
Theorem first_choice_only w q p d c cs :
  getApiKey w <> "" ->
  axios_post w
    (request w (formattedMessages (_messages p ++ [OfMessage (userMessage w q)])))
  = Resolved d ->
  choices d = Some (c :: cs) ->
  c_content c <> "" ->
  let r := _handleQuestion w q p in
  _messages r.2
  = _messages p ++ [OfMessage (userMessage w q); OfAIMessage (mkAIMessage (c_content c))]
  /\ posted r.2 = posted p ++ [mkEvent response_t (c_content c)].
Proof.
  intros K A C N r.
  destruct (handleQuestion_with_key w q p K) as (_ & _ & R3). fold r in R3.
  rewrite (client_result_resolved _ _ _ A), C in R3.
  destruct (decide (c_content c = "")); [contradiction |].
  destruct R3 as [-> ->]. now rewrite <- app_assoc.
Qed.

Lemma first_choice_only_witness :
  posted (_handleQuestion
            (answers "sk-test"
               (Resolved (mkAIResponse
                  (Some [mkChoice "assistant" "42"; mkChoice "assistant" "43"]) None)))
            "What is 6*7?" fresh).2
  = [mkEvent response_t "42"].
Proof.
  refine (proj2 (first_choice_only
    (answers "sk-test"
       (Resolved (mkAIResponse
          (Some [mkChoice "assistant" "42"; mkChoice "assistant" "43"]) None)))
    "What is 6*7?" fresh _ (mkChoice "assistant" "42") [mkChoice "assistant" "43"]
    _ eq_refl eq_refl _)); discriminate.
Defined.

(** X4.  When the key is set and the response has no [choices] field at
    all, the call ends as for an empty array: one error event with the
    wrapped no-response message, and the user turn as the only new turn. *)
Theorem missing_choices_reported w q p d :
  getApiKey w <> "" ->
  axios_post w
    (request w (formattedMessages (_messages p ++ [OfMessage (userMessage w q)])))
  = Resolved d ->
  choices d = None ->
  let r := _handleQuestion w q p in
  posted r.2
  = posted p ++ [mkEvent error_t "Error calling OpenAI API: No response from OpenAI API"]
  /\ _messages r.2 = _messages p ++ [OfMessage (userMessage w q)].
Proof.
  intros K A C r.
  destruct (handleQuestion_with_key w q p K) as (_ & _ & R3). fold r in R3.
  rewrite (client_result_resolved _ _ _ A), C in R3.
  destruct R3 as [Rm Rp]. auto.
Qed.

Lemma missing_choices_reported_witness :
  _messages (_handleQuestion
               (answers "sk-test" (Resolved (mkAIResponse None None))) "ping" fresh).2
  = [OfMessage (userMessage (answers "sk-test" (Resolved (mkAIResponse None None)))
       "ping")].
Proof.
  refine (proj2 (missing_choices_reported
    (answers "sk-test" (Resolved (mkAIResponse None None))) "ping" fresh
    (mkAIResponse None None) _ eq_refl eq_refl)); discriminate.
Defined.

(** ** A conversation *)

Lemma answered_step w m p :
  answered (w, m) ->
  let p' := (onDidReceiveMessage w m p).2 in
  length (_messages p') = length (_messages p) + 2
  /\ length (posted p') = length (posted p) + 1
  /\ exists rq, network p' = network p ++ [rq]
                /\ length (messages (body rq)) = length (_messages p) + 1.
Proof.
  intros (C & K & A) p'. subst p'. simpl in C, K, A. unfold onDidReceiveMessage.
  destruct (decide (command m = "askQuestion")) as [_ | N]; [| contradiction].
  destruct (handleQuestion_with_key w (text m) p K) as (_ & Rn & R3).
  set (log := _messages p ++ [OfMessage (userMessage w (text m))]) in *.
  specialize (A (request w (formattedMessages log))).
  destruct (axios_post w _) as [d | x] eqn:H; [| contradiction].
  rewrite (client_result_resolved _ _ _ H) in R3.
  destruct (choices d) as [[| c cs] |]; try contradiction.
  destruct (decide (c_content c = "")); [contradiction |].
  destruct R3 as [-> ->]. subst log. rewrite !length_app. simpl.
  repeat split; [lia |].
  eexists. split; [exact Rn |]. simpl.
  unfold formattedMessages. rewrite length_map, length_app. simpl. lia.
Qed.

(** X5.  Over any number of answered questions in a row the log grows by
    two turns and the webview gets one event per question, and the
    requests carry the whole conversation: the one for question number [i]
    (from 0) holds [2 * i + 1] messages more than the log held at the
    start. *)
Theorem answered_questions_accumulate deliveries p :
  Forall answered deliveries ->
  let p' := after p deliveries in
  length (_messages p') = length (_messages p) + 2 * length deliveries
  /\ length (posted p') = length (posted p) + length deliveries
  /\ exists rqs,
       network p' = network p ++ rqs
       /\ (fun rq => length (messages (body rq))) <$> rqs
          = (fun i => length (_messages p) + 2 * i + 1) <$> seq 0 (length deliveries).
Proof.
  intros H. revert p. unfold after.
  induction H as [| [w m] ds Hd _ IH]; intros p; simpl.
  - repeat split; try lia. exists []. now rewrite app_nil_r.
  - destruct (answered_step w m p Hd) as (Sm & Sp & rq & Sn & Sq).
    destruct (IH (onDidReceiveMessage w m p).2) as (Im & Ip & rqs & In' & Iq).
    cbv zeta in Sm, Sp, Sn, Im, Ip, In', Iq. simpl fst in *. simpl snd in *.
    rewrite Im, Ip, Sm, Sp. repeat split; try lia.
    exists (rq :: rqs). split.
    + rewrite In', Sn, <- app_assoc. reflexivity.
    + rewrite fmap_cons, Iq, Sq, Sm. f_equal; [lia |].
      change (list_fmap nat nat ?f ?l) with (f <$> l).
      rewrite <- seq_shift.
      change (map S ?l) with (S <$> l). rewrite <- list_fmap_compose.
      apply list_fmap_ext. intros _ i _. simpl. lia.
Qed.

Lemma answered_questions_accumulate_witness :
  length (_messages (after fresh (replicate 10 (answers_42, ask "again" None)))) = 20.
Proof.
  refine (proj1 (answered_questions_accumulate
    (replicate 10 (answers_42, ask "again" None)) fresh _)).
  apply Forall_replicate. split; [reflexivity |]. split; [discriminate |].
  intros rq. simpl. discriminate.
Defined.

(** X6.  A question whose exchange failed stays in the conversation: when
    the key is set for both calls, the request for the next question ends
    with the failed question and the new one, two user messages in a row. *)
Theorem failed_question_is_sent_again w1 w2 q1 q2 p e :
  getApiKey w1 <> "" ->
  getApiKey w2 <> "" ->
  client_result w1 (_messages p ++ [OfMessage (userMessage w1 q1)]) = Throw e ->
  let p1 := (_handleQuestion w1 q1 p).2 in
  let p2 := (_handleQuestion w2 q2 p1).2 in
  exists rq1 rq2,
    network p2 = network p ++ [rq1; rq2]
    /\ messages (body rq2)
       = formattedMessages (_messages p)
         ++ [mkFormatted RUser q1; mkFormatted RUser q2].
Proof.
  intros K1 K2 C p1 p2.
  destruct (handleQuestion_with_key w1 q1 p K1) as (_ & N1 & R1). fold p1 in N1, R1.
  rewrite C in R1. destruct R1 as [M1 _].
  destruct (handleQuestion_with_key w2 q2 p1 K2) as (_ & N2 & _). fold p2 in N2.
  do 2 eexists. split.
  - rewrite N2, N1, <- app_assoc. reflexivity.
  - simpl. rewrite M1. unfold formattedMessages.
    rewrite !map_app, <- app_assoc. reflexivity.
Qed.

Lemma failed_question_is_sent_again_witness :
  exists rq1 rq2,
    network (_handleQuestion answers_42 "and now?"
               (_handleQuestion server_error "ping" fresh).2).2
    = network fresh ++ [rq1; rq2]
    /\ messages (body rq2)
       = formattedMessages (_messages fresh)
         ++ [mkFormatted RUser "ping"; mkFormatted RUser "and now?"].
Proof.
  refine (failed_question_is_sent_again server_error answers_42 "ping" "and now?"
            fresh (ErrorObject "API error: The server had an error") _ _ eq_refl);
    discriminate.
Defined.

(** X7.  Webview messages with any other command than ["askQuestion"]
    change nothing: a sequence of messages leaves the panel as its
    [askQuestion] messages alone would. *)
Theorem other_commands_are_ignored deliveries p :
  after p deliveries
  = after p (filter (fun d => command d.2 = "askQuestion") deliveries).
Proof.
  revert p. unfold after. induction deliveries as [| [w m] ds IH]; intros p.
  - reflexivity.
  - rewrite filter_cons. simpl.
    destruct (decide (command m = "askQuestion")) as [E | N]; simpl.
    + apply IH.
    + rewrite <- IH. unfold onDidReceiveMessage.
      destruct (decide (command m = "askQuestion")); [contradiction | reflexivity].
Qed.

(** * Properties of the chat page *)

Import Webview.

Lemma bubbles_remove_loading_indicator cs :
  bubbles (remove_loading_indicator cs) = bubbles cs.
Proof.
  unfold bubbles. induction cs as [| [cls txt lbl im |] cs IH]; simpl; congruence.
Qed.

Lemma indicators_remove_loading_indicator cs :
  length (List.filter (fun c => negb (is_message c)) (remove_loading_indicator cs))
  = pred (length (List.filter (fun c => negb (is_message c)) cs)).
Proof.
  induction cs as [| [cls txt lbl im |] cs IH]; simpl; auto.
Qed.

Lemma indicators_snoc cs c :
  length (List.filter (fun c => negb (is_message c)) (cs ++ [c]))
  = length (List.filter (fun c => negb (is_message c)) cs)
    + (if is_message c then 0 else 1).
Proof.
  rewrite List.filter_app, length_app. simpl. now destruct (is_message c).
Qed.

Lemma tidy_addMessage type content image pg :
  tidy pg -> tidy (addMessage type content image pg).
Proof.
  unfold tidy, addMessage, appendChild. simpl. rewrite indicators_snoc. simpl.
  intros (H1 & H2 & H3). repeat split; auto. lia.
Qed.

Lemma tidy_showLoading pg : tidy pg -> tidy (showLoading pg).
Proof.
  unfold tidy, showLoading. intros (H1 & H2 & H3).
  destruct (isLoading pg) eqn:E; simpl; [rewrite E; auto |].
  rewrite indicators_snoc. simpl. repeat split; auto. lia.
Qed.

Lemma tidy_hideLoading pg : tidy pg -> tidy (hideLoading pg).
Proof.
  unfold tidy, hideLoading. intros (H1 & H2 & H3).
  destruct (isLoading pg) eqn:E; simpl; [| rewrite E; auto].
  rewrite indicators_remove_loading_indicator, H1. auto.
Qed.

Lemma tidy_step trim pg s : tidy pg -> tidy (step trim pg s).
Proof.
  intros H. destruct s as [| value | message | files | file result |]; simpl.
  - unfold sendMessage.
    destruct (bool_decide _ || bool_decide _); [| exact H].
    pose proof (tidy_showLoading _
      (tidy_addMessage "user"
         (if decide (trim (questionInput_value pg) = "") then "Image:"
          else trim (questionInput_value pg)) (currentImage pg) pg H)) as T.
    exact T.
  - exact H.
  - unfold onMessage.
    destruct (ev_type message); apply tidy_addMessage, tidy_hideLoading, H.
  - unfold handleImageUpload. destruct files as [| file rest]; [exact H |].
    destruct (String.prefix _ _); exact H.
  - exact H.
  - exact H.
Qed.

(** X8.  However the page is used after it has loaded, it stays tidy: the
    chat holds exactly one loading indicator while the page is waiting and
    none otherwise, and the input and the send button are disabled exactly
    while it is waiting. *)
Theorem page_stays_tidy trim steps :
  tidy (fold_left (step trim) steps loaded).
Proof.
  assert (forall pg, tidy pg -> tidy (fold_left (step trim) steps pg)) as G.
  { induction steps as [| s steps IH]; intros pg H; simpl; [exact H |].
    apply IH, tidy_step, H. }
  apply G. unfold tidy. simpl. auto.
Qed.

Lemma user_texts_remove_loading_indicator cs :
  user_texts (remove_loading_indicator cs) = user_texts cs.
Proof.
  unfold user_texts.
  induction cs as [| [cls txt lbl im |] cs IH]; simpl; [reflexivity | | reflexivity].
  destruct (decide (cls = "message user-message")); simpl; [f_equal |]; exact IH.
Qed.

Lemma user_texts_showLoading pg :
  user_texts (chatContainer (showLoading pg)) = user_texts (chatContainer pg).
Proof.
  unfold showLoading. destruct (isLoading pg); [reflexivity |]. simpl.
  unfold user_texts. rewrite omap_app. simpl. now rewrite app_nil_r.
Qed.

Lemma user_texts_hideLoading pg :
  user_texts (chatContainer (hideLoading pg)) = user_texts (chatContainer pg).
Proof.
  unfold hideLoading. destruct (isLoading pg); [| reflexivity]. simpl.
  apply user_texts_remove_loading_indicator.
Qed.

Lemma posts_showLoading pg :
  vscode_postMessage (showLoading pg) = vscode_postMessage pg.
Proof. unfold showLoading. now destruct (isLoading pg). Qed.

Lemma posts_hideLoading pg :
  vscode_postMessage (hideLoading pg) = vscode_postMessage pg.
Proof. unfold hideLoading. now destruct (isLoading pg). Qed.

Lemma sent_matches_shown_step trim pg s :
  user_texts (chatContainer pg) = shown_text <$> vscode_postMessage pg ->
  user_texts (chatContainer (step trim pg s))
  = shown_text <$> vscode_postMessage (step trim pg s).
Proof.
  intros H. destruct s as [| value | message | files | file result |]; simpl; auto.
  - unfold sendMessage.
    destruct (bool_decide _ || bool_decide _); [| exact H]. simpl.
    rewrite user_texts_showLoading, posts_showLoading. simpl.
    unfold user_texts in *. rewrite omap_app, fmap_app, H. reflexivity.
  - unfold onMessage. destruct (ev_type message); simpl;
      unfold user_texts in *; rewrite omap_app; simpl; rewrite app_nil_r;
      fold (user_texts (chatContainer (hideLoading pg)));
      now rewrite user_texts_hideLoading, posts_hideLoading.
  - unfold handleImageUpload. destruct files as [| file rest]; [exact H |].
    destruct (String.prefix _ _); exact H.
Qed.

(** X9.  However the page is used after it has loaded, the messages it has
    sent to the extension and the user messages it shows match one to one
    and in order: each shows the text that was sent, or ["Image:"] where
    the text sent was empty. *)
Theorem sent_matches_shown trim steps :
  user_texts (chatContainer (fold_left (step trim) steps loaded))
  = shown_text <$> vscode_postMessage (fold_left (step trim) steps loaded).
Proof.
  assert (forall pg,
            user_texts (chatContainer pg) = shown_text <$> vscode_postMessage pg ->
            user_texts (chatContainer (fold_left (step trim) steps pg))
            = shown_text <$> vscode_postMessage (fold_left (step trim) steps pg)) as G.
  { induction steps as [| s steps IH]; intros pg H; simpl; [exact H |].
    apply IH, sent_matches_shown_step, H. }
  apply G. reflexivity.
Qed.

Lemma bubbles_step trim pg s :
  bubbles (chatContainer pg) `prefix_of` bubbles (chatContainer (step trim pg s)).
Proof.
  assert (forall g, bubbles (chatContainer (hideLoading g)) = bubbles (chatContainer g)) as Hh.
  { intros g. unfold hideLoading. destruct (isLoading g); [| reflexivity].
    apply bubbles_remove_loading_indicator. }
  assert (forall g, bubbles (chatContainer (showLoading g)) = bubbles (chatContainer g)) as Hs.
  { intros g. unfold showLoading. destruct (isLoading g); [reflexivity |]. simpl.
    unfold bubbles. rewrite List.filter_app. simpl. now rewrite app_nil_r. }
  destruct s as [| value | message | files | file result |]; simpl; try reflexivity.
  - unfold sendMessage.
    destruct (bool_decide _ || bool_decide _); [| reflexivity]. simpl.
    rewrite Hs. simpl. unfold bubbles. rewrite List.filter_app.
    now apply prefix_app_r.
  - unfold onMessage. destruct (ev_type message); simpl;
      unfold bubbles; rewrite List.filter_app;
      fold (bubbles (chatContainer (hideLoading pg))); rewrite Hh;
      now apply prefix_app_r.
  - unfold handleImageUpload. destruct files as [| file rest]; [reflexivity |].
    destruct (String.prefix _ _); reflexivity.
Qed.

(** X10.  The page never takes a message back: whatever happens on it, the
    messages it showed before are still there, unchanged and in the same
    order, before any new one. *)
Theorem messages_stay_on_page trim steps pg :
  bubbles (chatContainer pg)
  `prefix_of` bubbles (chatContainer (fold_left (step trim) steps pg)).
Proof.
  revert pg. induction steps as [| s steps IH]; intros pg; simpl.
  - reflexivity.
  - etransitivity; [apply (bubbles_step trim pg s) | apply IH].
Qed.

(** * Properties of the page and the panel together *)

Lemma bubbles_snoc cs c :
  is_message c = true -> bubbles (cs ++ [c]) = bubbles cs ++ [c].
Proof. intros H. unfold bubbles. rewrite List.filter_app. simpl. now rewrite H. Qed.

Lemma bubbles_showLoading pg :
  bubbles (chatContainer (showLoading pg)) = bubbles (chatContainer pg).
Proof.
  unfold showLoading. destruct (isLoading pg); [reflexivity |]. simpl.
  unfold bubbles. rewrite List.filter_app. simpl. now rewrite app_nil_r.
Qed.

Lemma bubbles_hideLoading pg :
  bubbles (chatContainer (hideLoading pg)) = bubbles (chatContainer pg).
Proof.
  unfold hideLoading. destruct (isLoading pg); [| reflexivity].
  apply bubbles_remove_loading_indicator.
Qed.

(** What [sendMessage] leaves behind when there is something to send. *)
Lemma sendMessage_sends trim pg q :
  trim (questionInput_value pg) = q ->
  q <> "" \/ is_Some (currentImage pg) ->
  let pg' := sendMessage trim pg in
  vscode_postMessage pg'
  = vscode_postMessage pg ++ [mkInbound "askQuestion" q (currentImage pg)]
  /\ bubbles (chatContainer pg')
     = bubbles (chatContainer pg)
       ++ [user_div (if decide (q = "") then "Image:" else q) (currentImage pg)]
  /\ isLoading pg' = true
  /\ questionInput_value pg' = ""
  /\ currentImage pg' = None
  /\ (isLoading pg = false ->
      questionInput_disabled pg' = true /\ sendBtn_disabled pg' = true).
Proof.
  intros T S pg'. subst pg'. unfold sendMessage. rewrite T.
  assert (bool_decide (q <> "") || bool_decide (is_Some (currentImage pg)) = true) as ->.
  { destruct S as [S | S].
    - now rewrite (bool_decide_eq_true_2 _ S).
    - rewrite (bool_decide_eq_true_2 _ S). apply orb_true_r. }
  simpl. rewrite posts_showLoading, bubbles_showLoading. simpl.
  rewrite bubbles_snoc by reflexivity.
  split; [reflexivity |]. split; [reflexivity |].
  split; [unfold showLoading; simpl; destruct (isLoading pg) eqn:E; simpl; auto |].
  split; [reflexivity |]. split; [reflexivity |].
  intros L. unfold showLoading. simpl. rewrite L. simpl. auto.
Qed.

(** One submission, carried to [_handleQuestion] and back. *)
Lemma submit_question trim w pg p q :
  trim (questionInput_value pg) = q ->
  q <> "" \/ is_Some (currentImage pg) ->
  submit trim w (pg, p)
  = (fold_left (fun g ev => onMessage ev g)
       (drop (length (posted p)) (posted (_handleQuestion w q p).2))
       (sendMessage trim pg),
     (_handleQuestion w q p).2).
Proof.
  intros T S. destruct (sendMessage_sends trim pg q T S) as (Hp & _).
  unfold submit. simpl. rewrite Hp, drop_app_length. simpl.
  unfold onDidReceiveMessage. simpl. reflexivity.
Qed.

(** What the listener makes of one event on a waiting page. *)
Lemma onMessage_on_waiting ev pg :
  isLoading pg = true ->
  let pg' := onMessage ev pg in
  bubbles (chatContainer pg')
  = bubbles (chatContainer pg)
    ++ [ai_div (match ev_type ev with
                | response_t => ev_content ev
                | error_t => "Error: " +:+ ev_content ev
                end)]
  /\ isLoading pg' = false
  /\ questionInput_disabled pg' = false
  /\ sendBtn_disabled pg' = false
  /\ questionInput_value pg' = questionInput_value pg.
Proof.
  intros L pg'. subst pg'. unfold onMessage.
  destruct (ev_type ev); simpl; rewrite bubbles_snoc by reflexivity;
    rewrite bubbles_hideLoading; unfold hideLoading; rewrite L; simpl; auto.
Qed.

(** X11.  A question that is answered ends on the page: after a submission
    with a key set and an answer that is not empty, the page shows the
    question and then the answer after what it showed before, waits no
    longer, has its input cleared and enabled again, and the log holds the
    two new turns. *)
Theorem answer_reaches_page trim w pg p q txt :
  trim (questionInput_value pg) = q ->
  q <> "" ->
  getApiKey w <> "" ->
  client_result w (_messages p ++ [OfMessage (userMessage w q)]) = Normal txt ->
  txt <> "" ->
  let s' := submit trim w (pg, p) in
  bubbles (chatContainer s'.1)
  = bubbles (chatContainer pg) ++ [user_div q (currentImage pg); ai_div txt]
  /\ isLoading s'.1 = false
  /\ questionInput_disabled s'.1 = false
  /\ sendBtn_disabled s'.1 = false
  /\ questionInput_value s'.1 = ""
  /\ _messages s'.2
     = _messages p ++ [OfMessage (userMessage w q); OfAIMessage (mkAIMessage txt)].
Proof.
  intros T Q K C N s'. subst s'.
  rewrite (submit_question trim w pg p q T (or_introl Q)).
  destruct (handleQuestion_with_key w q p K) as (_ & _ & R3). rewrite C in R3.
  destruct (decide (txt = "")); [contradiction |]. destruct R3 as [Rm Rp].
  destruct (sendMessage_sends trim pg q T (or_introl Q)) as (_ & Sb & Sl & Sv & _).
  destruct (decide (q = "")); [contradiction |].
  cbn [fst snd]. rewrite Rp, drop_app_length, Rm. cbn [fold_left].
  destruct (onMessage_on_waiting (mkEvent response_t txt) _ Sl) as (B & L & D1 & D2 & V).
  rewrite B, L, D1, D2, V, Sb, Sv, <- !app_assoc. simpl. repeat split.
Qed.

Lemma answer_reaches_page_witness :
  bubbles (chatContainer (submit ascii_trim answers_42 (typed " What is 6*7? ", fresh)).1)
  = bubbles (chatContainer (typed " What is 6*7? "))
    ++ [user_div "What is 6*7?" None; ai_div "42"].
Proof.
  refine (proj1 (answer_reaches_page ascii_trim answers_42 (typed " What is 6*7? ")
                   fresh "What is 6*7?" "42" eq_refl _ _ eq_refl _)); discriminate.
Defined.

Lemma waiting_step trim pg s :
  (forall m, s <> Message m) ->
  isLoading pg = true /\ questionInput_disabled pg = true /\ sendBtn_disabled pg = true ->
  isLoading (step trim pg s) = true
  /\ questionInput_disabled (step trim pg s) = true
  /\ sendBtn_disabled (step trim pg s) = true.
Proof.
  intros N (L & D1 & D2).
  destruct s as [| value | message | files | file result |]; simpl; auto.
  - unfold sendMessage. destruct (bool_decide _ || bool_decide _); [| auto].
    unfold showLoading. simpl. rewrite L. simpl. auto.
  - now destruct (N message).
  - unfold handleImageUpload. destruct files as [| file rest]; [auto |].
    destruct (String.prefix _ _); simpl; auto.
Qed.

(** X12.  An empty answer leaves the page waiting: after a submission with
    a key set and an answer that is the empty string, the page shows the
    question and no answer, and it keeps its loading indicator, with the
    input and the send button disabled, through everything that happens on
    it other than a message from the extension. *)
Theorem empty_answer_leaves_page_waiting trim w pg p q steps :
  trim (questionInput_value pg) = q ->
  q <> "" ->
  getApiKey w <> "" ->
  client_result w (_messages p ++ [OfMessage (userMessage w q)]) = Normal "" ->
  isLoading pg = false ->
  Forall (fun s => forall m, s <> Message m) steps ->
  let s' := submit trim w (pg, p) in
  let later := fold_left (step trim) steps s'.1 in
  posted s'.2 = posted p
  /\ bubbles (chatContainer s'.1)
     = bubbles (chatContainer pg) ++ [user_div q (currentImage pg)]
  /\ isLoading later = true
  /\ questionInput_disabled later = true
  /\ sendBtn_disabled later = true.
Proof.
  intros T Q K C L F s' later. subst later s'.
  rewrite (submit_question trim w pg p q T (or_introl Q)).
  destruct (handleQuestion_with_key w q p K) as (_ & _ & R3). rewrite C in R3.
  simpl in R3. destruct R3 as [_ Rp].
  destruct (sendMessage_sends trim pg q T (or_introl Q)) as (_ & Sb & Sl & _ & _ & Sd).
  destruct (decide (q = "")); [contradiction |].
  cbn [fst snd]. rewrite Rp, drop_all. cbn [fold_left].
  split; [reflexivity |]. split; [exact Sb |].
  specialize (Sd L). revert Sl Sd. generalize (sendMessage trim pg).
  induction F as [| s steps Hs _ IH]; intros g Sl Sd; simpl.
  - tauto.
  - destruct (waiting_step trim g s Hs) as (A & B & D); [tauto |].
    apply IH; auto.
Qed.

Lemma empty_answer_leaves_page_waiting_witness :
  questionInput_disabled
    (fold_left (step ascii_trim) [Edit "hello?"; Submit; Timeout]
       (submit ascii_trim answers_nothing (typed "ping", fresh)).1)
  = true.
Proof.
  refine (proj1 (proj2 (proj2 (proj2
    (empty_answer_leaves_page_waiting ascii_trim answers_nothing (typed "ping")
       fresh "ping" [Edit "hello?"; Submit; Timeout] eq_refl _ _ eq_refl eq_refl _)))));
    try discriminate.
  repeat constructor; discriminate.
Defined.

(** X13.  A missing key ends on the page as an error: after a submission
    without a key the page shows what was submitted and then ["Error: "]
    with the missing-key message, waits no longer and is enabled again;
    the log and the network are as they were. *)
Theorem missing_key_reaches_page trim w pg p q :
  trim (questionInput_value pg) = q ->
  q <> "" \/ is_Some (currentImage pg) ->
  getApiKey w = "" ->
  let s' := submit trim w (pg, p) in
  bubbles (chatContainer s'.1)
  = bubbles (chatContainer pg)
    ++ [user_div (if decide (q = "") then "Image:" else q) (currentImage pg);
        ai_div ("Error: " +:+ no_key_message)]
  /\ isLoading s'.1 = false
  /\ questionInput_disabled s'.1 = false
  /\ sendBtn_disabled s'.1 = false
  /\ _messages s'.2 = _messages p
  /\ network s'.2 = network p.
Proof.
  intros T S E s'. subst s'. rewrite (submit_question trim w pg p q T S).
  destruct (sendMessage_sends trim pg q T S) as (_ & Sb & Sl & _).
  unfold _handleQuestion, try_catch. rewrite (handleQuestion_try_no_key w q p E).
  cbn [fst snd]. simpl posted. rewrite drop_app_length. cbn [fold_left].
  destruct (onMessage_on_waiting (mkEvent error_t no_key_message) _ Sl)
    as (B & L & D1 & D2 & _).
  cbn [ev_type ev_content] in B. unfold no_key_message in *.
  rewrite B, L, D1, D2, Sb, <- !app_assoc. simpl. repeat split.
Qed.

Lemma missing_key_reaches_page_witness :
  isLoading (submit ascii_trim no_key (typed "ping", fresh)).1 = false.
Proof.
  refine (proj1 (proj2
    (missing_key_reaches_page ascii_trim no_key (typed "ping") fresh "ping"
       eq_refl _ eq_refl))).
  left. discriminate.
Defined.

(** X14.  A failed exchange ends on the page as an error: after a
    submission with a key set and a client that fails, the page shows the
    question and then ["Error: "] with the failure's message, waits no
    longer and is enabled again. *)
Theorem failure_reaches_page trim w pg p q e :
  trim (questionInput_value pg) = q ->
  q <> "" ->
  getApiKey w <> "" ->
  client_result w (_messages p ++ [OfMessage (userMessage w q)]) = Throw e ->
  let s' := submit trim w (pg, p) in
  bubbles (chatContainer s'.1)
  = bubbles (chatContainer pg)
    ++ [user_div q (currentImage pg); ai_div ("Error: " +:+ message_or_String e)]
  /\ isLoading s'.1 = false
  /\ questionInput_disabled s'.1 = false
  /\ sendBtn_disabled s'.1 = false.
Proof.
  intros T Q K C s'. subst s'.
  rewrite (submit_question trim w pg p q T (or_introl Q)).
  destruct (handleQuestion_with_key w q p K) as (_ & _ & R3). rewrite C in R3.
  destruct R3 as [_ Rp].
  destruct (sendMessage_sends trim pg q T (or_introl Q)) as (_ & Sb & Sl & _).
  destruct (decide (q = "")); [contradiction |].
  cbn [fst snd]. rewrite Rp, drop_app_length. cbn [fold_left].
  destruct (onMessage_on_waiting (mkEvent error_t (message_or_String e)) _ Sl)
    as (B & L & D1 & D2 & _).
  cbn [ev_type ev_content] in B.
  rewrite B, L, D1, D2, Sb, <- !app_assoc. simpl. repeat split.
Qed.

Lemma failure_reaches_page_witness :
  bubbles (chatContainer (submit ascii_trim invalid_key (typed "ping", fresh)).1)
  = bubbles (chatContainer (typed "ping"))
    ++ [user_div "ping" None; ai_div "Error: API error: invalid key"].
Proof.
  refine (proj1 (failure_reaches_page ascii_trim invalid_key (typed "ping") fresh
                   "ping" (ErrorObject "API error: invalid key") eq_refl _ _ eq_refl));
    discriminate.
Defined.

Lemma handleQuestion_log_with_key w q p :
  getApiKey w <> "" ->
  exists rest,
    _messages (_handleQuestion w q p).2
    = _messages p ++ OfMessage (userMessage w q) :: rest.
Proof.
  intros K. destruct (handleQuestion_with_key w q p K) as (_ & _ & R3).
  destruct (client_result w _) as [txt | e].
  - destruct (decide (txt = "")) as [E | E]; destruct R3 as [-> _].
    + now exists [].
    + rewrite <- app_assoc. simpl. eauto.
  - destruct R3 as [-> _]. now exists [].
Qed.

Lemma events_on_page evs pg :
  let pg' := fold_left (fun g ev => onMessage ev g) evs pg in
  vscode_postMessage pg' = vscode_postMessage pg
  /\ currentImage pg' = currentImage pg
  /\ bubbles (chatContainer pg) `prefix_of` bubbles (chatContainer pg').
Proof.
  revert pg. induction evs as [| ev evs IH]; intros pg; simpl.
  - repeat split. reflexivity.
  - destruct (IH (onMessage ev pg)) as (Hp & Hi & Hb). rewrite Hp, Hi.
    split; [| split].
    + unfold onMessage. destruct (ev_type ev); simpl; apply posts_hideLoading.
    + unfold onMessage, hideLoading.
      destruct (ev_type ev); simpl; now destruct (isLoading pg).
    + etransitivity; [apply (bubbles_step (fun s => s) pg (Message ev)) | exact Hb].
Qed.

(** X15.  A picture sent without text: when the input is blank, a picture
    is chosen and the key is set, the page sends the empty text with the
    picture, shows ["Image:"] with the picture and forgets the picture,
    while the panel logs a user turn with empty content and no image and
    sends a request whose last message has empty content. *)
Theorem picture_only_question trim w pg p im :
  trim (questionInput_value pg) = "" ->
  currentImage pg = Some im ->
  getApiKey w <> "" ->
  let s' := submit trim w (pg, p) in
  vscode_postMessage s'.1
  = vscode_postMessage pg ++ [mkInbound "askQuestion" "" (Some im)]
  /\ (exists rest,
        bubbles (chatContainer s'.1)
        = bubbles (chatContainer pg) ++ user_div "Image:" (Some im) :: rest)
  /\ currentImage s'.1 = None
  /\ _messages s'.2 !! length (_messages p)
     = Some (OfMessage (mkMessage user "" (Some (Date_now w)) None))
  /\ exists rq,
       network s'.2 = network p ++ [rq]
       /\ last (messages (body rq)) = Some (mkFormatted RUser "").
Proof.
  intros T I K s'. subst s'.
  assert ("" <> "" \/ is_Some (currentImage pg)) as S by (right; rewrite I; eauto).
  rewrite (submit_question trim w pg p "" T S).
  destruct (sendMessage_sends trim pg "" T S) as (Sp & Sb & _ & _ & Si & _).
  rewrite I in Sp, Sb. simpl in Sb.
  destruct (events_on_page
              (drop (length (posted p)) (posted (_handleQuestion w "" p).2))
              (sendMessage trim pg)) as (Ep & Ei & [rest Eb]).
  cbn [fst snd]. rewrite Ep, Ei, Eb, Sp, Sb, Si.
  split; [reflexivity |]. split; [rewrite <- app_assoc; simpl; eauto |].
  split; [reflexivity |]. split.
  - destruct (handleQuestion_log_with_key w "" p K) as [more ->].
    now apply list_lookup_middle.
  - destruct (handleQuestion_with_key w "" p K) as (_ & Rn & _).
    eexists. split; [exact Rn |]. simpl. unfold formattedMessages.
    rewrite map_app. simpl. now rewrite last_snoc.
Qed.

Lemma picture_only_question_witness :
  _messages (submit ascii_trim answers_42 (with_picture "  ", fresh)).2 !! 0
  = Some (OfMessage (mkMessage user "" (Some (Date_now answers_42)) None)).
Proof.
  refine (proj1 (proj2 (proj2 (proj2
    (picture_only_question ascii_trim answers_42 (with_picture "  ") fresh
       (mkImage "data:image/png;base64,iVBORw0KGgo=" "image/png" (Some "shot.png"))
       eq_refl eq_refl _))))).
  discriminate.
Defined.

(** X16.  A blank submission goes nowhere: when the input is blank after
    trimming and no picture is chosen, submitting changes neither the page
    nor the panel, so nothing is shown, sent, logged or requested. *)
Theorem blank_submission_goes_nowhere trim w pg p :
  trim (questionInput_value pg) = "" ->
  currentImage pg = None ->
  submit trim w (pg, p) = (pg, p).
Proof.
  intros T I. unfold submit, sendMessage. simpl. rewrite T, I.
  rewrite bool_decide_eq_false_2 by (intros H; now apply H).
  rewrite bool_decide_eq_false_2 by (intros [x H]; discriminate).
  simpl. rewrite drop_all. simpl. now rewrite drop_all.
Qed.

Lemma blank_submission_goes_nowhere_witness :
  submit ascii_trim answers_42 (typed "   ", fresh) = (typed "   ", fresh).
Proof.
  exact (blank_submission_goes_nowhere ascii_trim answers_42 (typed "   ") fresh
           eq_refl eq_refl).
Defined.

(** * Properties of [_getWebviewContent] and [dispose] *)

(** X17.  [_getWebviewContent] never throws: whatever the disk holds and
    does, it returns some HTML, leaves the conversation, the posted events
    and the network alone, and at most adds lines to the output channel. *)
Theorem webview_content_never_throws fs ext p :
  let r := _getWebviewContent fs ext p in
  exists html,
    r.1 = Normal html
    /\ _messages r.2 = _messages p
    /\ posted r.2 = posted p
    /\ network r.2 = network p
    /\ _outputChannel p `prefix_of` _outputChannel r.2.
Proof.
  unfold _getWebviewContent. run. unfold call.
  destruct (existsSync fs _); simpl.
  - destruct (readFileSync fs _) as [c | e]; simpl.
    + exists c. repeat split. reflexivity.
    + eexists. repeat split. now apply prefix_app_r.
  - eexists. repeat split. now apply prefix_app_r.
Qed.

(** X18.  When [webview.html] is not where it should be, the panel gets an
    error page that names the path looked at, the same text goes to the
    output channel, and the file is reported missing rather than read. *)
Theorem missing_page_is_reported fs ext p :
  let htmlPath := path_join fs [ext; "out"; "webview"; "webview.html"] in
  existsSync fs htmlPath = false ->
  let r := _getWebviewContent fs ext p in
  let line :=
    "Error loading webview content: Error: HTML file not found at: " +:+ htmlPath in
  r.1 = Normal ("<html><body><h1>Error loading content</h1><p>" +:+ line
                +:+ "</p></body></html>")
  /\ _outputChannel r.2 = _outputChannel p ++ [line].
Proof.
  intros htmlPath E r line. subst r line.
  unfold _getWebviewContent. run. fold htmlPath. rewrite E. simpl.
  split; reflexivity.
Qed.

Lemma missing_page_is_reported_witness :
  _outputChannel (_getWebviewContent incomplete "/home/me/ext" fresh).2
  = ["Error loading webview content: Error: HTML file not found at: "
     +:+ "/home/me/ext/out/webview/webview.html"].
Proof.
  exact (proj2 (missing_page_is_reported incomplete "/home/me/ext" fresh eq_refl)).
Defined.



Lemma dispose_loop_spec fuel cur ds calls live :
  length ds <= fuel ->
  dispose_loop fuel (mkLifetime cur ds calls live)
  = mkLifetime cur [] (calls ++ (disposable_dispose <$> reverse (omap id ds))) live.
Proof.
  revert ds calls. induction fuel as [| fuel IH]; intros ds calls H.
  - destruct ds; [| simpl in H; lia]. simpl. now rewrite app_nil_r.
  - destruct ds as [| d ds'] using rev_ind.
    + simpl. now rewrite app_nil_r.
    + clear IHds'. rewrite length_app in H. simpl in H.
      cbn [dispose_loop _disposables currentPanel host_calls panel_live].
      destruct (decide (length (ds' ++ [d]) = 0)) as [Z | _].
      { rewrite length_app in Z. simpl in Z. lia. }
      rewrite last_snoc, removelast_last. simpl mjoin.
      rewrite IH by lia. f_equal.
      rewrite omap_app, reverse_app. simpl.
      destruct d as [d |]; simpl.
      * rewrite <- app_assoc. reflexivity.
      * reflexivity.
Qed.

(** On a disposed panel no listener runs, whatever it is. *)
Lemma dispose_with_disposed f l :
  panel_live l = false ->
  dispose_with f l
  = mkLifetime None []
      (host_calls l
       ++ panel_dispose :: (disposable_dispose <$> reverse (omap id (_disposables l))))
      false.
Proof.
  intros D. unfold dispose_with, _panel_dispose. simpl. rewrite D. simpl.
  rewrite dispose_loop_spec by reflexivity. now rewrite <- app_assoc.
Qed.

Lemma dispose_run l :
  dispose l
  = mkLifetime None []
      (host_calls l
       ++ (if panel_live l then [panel_dispose; panel_dispose] else [panel_dispose])
       ++ (disposable_dispose <$> reverse (omap id (_disposables l))))
      false.
Proof.
  unfold dispose. destruct (panel_live l) eqn:D.
  - unfold dispose_with at 1, _panel_dispose. simpl. rewrite D.
    rewrite dispose_with_disposed by reflexivity. simpl.
    now rewrite <- app_assoc.
  - now rewrite dispose_with_disposed by exact D.
Qed.

(** X20.  [dispose] gives everything back: it clears
    [AIPanel.currentPanel], disposes the webview panel and then every entry
    of [_disposables] that is there, each once and the last registered
    first, and leaves [_disposables] empty.  Called on a live panel it
    comes back into itself through the panel's [onDidDispose], so the
    panel's [dispose] is called twice, once by each of the two runs, before
    any entry's; called on a disposed panel, as the listener does, it calls
    it once. *)
Theorem dispose_releases_everything l :
  dispose l = dispose_with dispose l
  /\ dispose l
     = mkLifetime None []
         (host_calls l
          ++ (if panel_live l then [panel_dispose; panel_dispose] else [panel_dispose])
          ++ (disposable_dispose <$> reverse (omap id (_disposables l))))
         false.
Proof.
  split; [| apply dispose_run].
  unfold dispose at 1. destruct (panel_live l) eqn:D.
  - unfold dispose_with at 1 3, _panel_dispose. simpl. rewrite D.
    unfold dispose. now rewrite !dispose_with_disposed by reflexivity.
  - now rewrite !dispose_with_disposed by exact D.
Qed.

(** X21.  Disposing again is harmless: the second [dispose] calls the
    webview panel's [dispose] once more and no entry's, and leaves the
    state as the first one made it. *)
Theorem dispose_again_is_harmless l :
  dispose (dispose l)
  = mkLifetime None [] (host_calls (dispose l) ++ [panel_dispose]) false.
Proof.
  rewrite (dispose_run l). rewrite dispose_run. reflexivity.
Qed.

(** * Properties of the picture *)

(** X22.  A picture is sent once: the submission after a reader has
    finished sends the picture it read, with the file's type and name, and
    the submission after that, whatever was typed in between, sends no
    picture. *)
Theorem picture_is_sent_once trim pg file result value :
  let pg1 := reader_onload file result pg in
  let pg2 := sendMessage trim pg1 in
  let pg3 := sendMessage trim (step trim pg2 (Edit value)) in
  vscode_postMessage pg2
  = vscode_postMessage pg
    ++ [mkInbound "askQuestion" (trim (questionInput_value pg))
          (Some (mkImage result (file_type file) (Some (file_name file))))]
  /\ Forall (fun m => in_image m = None)
       (drop (length (vscode_postMessage pg2)) (vscode_postMessage pg3)).
Proof.
  intros pg1 pg2 pg3.
  assert (is_Some (currentImage pg1)) as S by (subst pg1; simpl; eauto).
  destruct (sendMessage_sends trim pg1 _ eq_refl (or_intror S))
    as (Sp & _ & _ & _ & Si & _).
  fold pg2 in Sp, Si. split; [exact Sp |].
  subst pg3. unfold sendMessage at 1. simpl. rewrite Si.
  destruct (bool_decide (trim value <> "") || bool_decide (is_Some None)).
  - simpl. rewrite posts_showLoading. simpl. rewrite drop_app_length.
    now constructor.
  - simpl. rewrite drop_all. constructor.
Qed.
